(** * Chat session controller: useChat, ChatAPI, ChatProvider, ChatInput

    A shallow embedding of the chat widget's session logic
    (src/hooks/useChat.ts, src/utils/api.ts,
    src/components/ChatContext/ChatProvider.tsx, useChatContext.ts and
    src/components/ChatWidget/ChatInput.tsx) and the properties the
    design document states about it. *)

From Stdlib Require Import String Ascii List ZArith NArith Bool Lia.
Import ListNotations.

Set Implicit Arguments.

(** ** JavaScript strings

    A JavaScript string is a sequence of UTF-16 code units. *)

Definition code_unit := N.
Definition jsstring := list code_unit.

Fixpoint lit (s : string) : jsstring :=
  match s with
  | EmptyString => []
  | String c r => N_of_ascii c :: lit r
  end.

(** [Boolean(s)] for a string: the empty string is the only falsy one. *)
Definition truthy (s : jsstring) : bool :=
  match s with [] => false | _ :: _ => true end.

(** [a || b] on strings. *)
Definition or_else (a b : jsstring) : jsstring :=
  if truthy a then a else b.

(** ECMAScript WhiteSpace and LineTerminator code points, the ones
    [String.prototype.trim] strips.  All of them are in the basic plane, so
    each is one code unit. *)
Definition isWhiteSpace (c : code_unit) : bool :=
  ((c =? 0x09) || (c =? 0x0A) || (c =? 0x0B) || (c =? 0x0C) || (c =? 0x0D)
   || (c =? 0x20) || (c =? 0xA0) || (c =? 0x1680)
   || ((0x2000 <=? c) && (c <=? 0x200A))
   || (c =? 0x2028) || (c =? 0x2029) || (c =? 0x202F) || (c =? 0x205F)
   || (c =? 0x3000) || (c =? 0xFEFF))%N.

Fixpoint trimStart (s : jsstring) : jsstring :=
  match s with
  | [] => []
  | c :: r => if isWhiteSpace c then trimStart r else s
  end.

Definition trimEnd (s : jsstring) : jsstring := rev (trimStart (rev s)).

Definition trim (s : jsstring) : jsstring := trimEnd (trimStart s).

(** ** Arrays

    [arr.slice(start)] with the end left out: a negative [start] counts
    from the end, and the resulting index is clamped to [0, length]. *)
Definition slice (A : Type) (start : Z) (arr : list A) : list A :=
  let len := Z.of_nat (length arr) in
  let k := if (start <? 0)%Z then Z.max (len + start) 0 else Z.min start len in
  skipn (Z.to_nat k) arr.

(** The design document's wording of the retained window: the last
    [min n length] turns, in their original order. *)
Definition last_turns (A : Type) (n : nat) (l : list A) : list A :=
  rev (firstn (Nat.min n (length l)) (rev l)).

(** ** Data model (components/ChatWidget/types.ts) *)

Inductive Role := user | assistant.

Record Source := mkSource {
  title : jsstring;
  url : jsstring;
  module : jsstring;
  chapter : option jsstring
}.

Record Message := mkMessage {
  id : jsstring;
  role : Role;
  content : jsstring;
  timestamp : Z;
  sources : option (list Source)
}.

Record ChatResponse := mkChatResponse {
  response : jsstring;
  resp_sources : list Source
}.

Record ChatError := mkChatError {
  err_error : jsstring;
  err_code : jsstring
}.

(** A thrown JavaScript value as a catch clause sees it: an [Error]
    instance with its [message], or any other value. *)
Inductive Thrown :=
| ErrorObj (message : jsstring)
| NotAnError.

(** How a call completes: it returns (an awaited promise fulfils) or it
    throws (an awaited promise rejects). *)
Inductive Outcome (A : Type) :=
| Returned (v : A)
| Threw (e : Thrown).
Arguments Returned {A} v.
Arguments Threw {A} e.

(** The values [uuidv4()] and [Date.now()] give when one message is
    built. *)
Record Fresh := mkFresh {
  uuid : jsstring;
  now : Z
}.

(** ** utils/api.ts *)

Module ChatAPI.

(** What the network does with one request: [fetch] rejects, or it
    resolves to a response whose [ok] flag is false or true and whose
    [json()] body parses to the declared type or throws. *)
Inductive FetchResult :=
| FetchRejected (e : Thrown)
| NotOk (body : Outcome ChatError)
| Ok (body : Outcome ChatResponse).

Definition Network := jsstring -> FetchResult.

(** [sendQuery]: the [throw new Error(...)] of the [!response.ok] branch
    and every rejection pass through the catch clause, which logs and
    rethrows. *)
Definition sendQuery (fetch : Network) (query : jsstring) : Outcome ChatResponse :=
  match fetch query with
  | FetchRejected e => Threw e
  | NotOk (Threw e) => Threw e
  | NotOk (Returned errorData) =>
      Threw (ErrorObj (or_else (err_error errorData)
                               (lit "Failed to get response")))
  | Ok (Threw e) => Threw e
  | Ok (Returned data) => Returned data
  end.

(** The body of [/api/health]. *)
Record Health := mkHealth {
  status : jsstring;
  qdrant : bool;
  gemini : bool
}.

(** What the network does with the health request: [fetch] rejects, or it
    resolves to a response with an [ok] flag whose [json()] parses or
    throws. *)
Inductive HealthFetch :=
| HealthRejected (e : Thrown)
| HealthResponse (ok : bool) (body : Outcome Health).

(** [checkHealth]: the body is returned without a look at [response.ok];
    the catch clause logs and returns a fixed record. *)
Definition checkHealth (fetch : HealthFetch) : Outcome Health :=
  match fetch with
  | HealthResponse _ (Returned data) => Returned data
  | HealthResponse _ (Threw _) | HealthRejected _ =>
      Returned (mkHealth (lit "error") false false)
  end.

End ChatAPI.

(** ** Persisted value *)

(** Modelled from the spec: the hook [useLocalStorage]
    (src/hooks/useLocalStorage) is not among the sources.  The design
    document gives its contract: one key holds an ordered sequence of
    turns, and the key may be absent or hold something unparsable. *)
Inductive StoredValue :=
| Absent
| Unparsable
| Snapshot (turns : list Message).

(** Modelled from the spec: the read half of [useLocalStorage]; an absent
    or unparsable value reads as the fallback given to the hook. *)
Definition readStored (initialValue : list Message) (v : StoredValue) : list Message :=
  match v with
  | Snapshot turns => turns
  | Absent | Unparsable => initialValue
  end.

(** ** Session state

    The React state of [useChat] ([messages], [isLoading], [error]) and of
    [ChatProvider] ([isOpen]), the value under the storage key, and the
    queries handed to [ChatAPI.sendQuery] so far, oldest first. *)
Record World := mkWorld {
  messages : list Message;
  isLoading : bool;
  error : option jsstring;
  isOpen : bool;
  storage : StoredValue;
  requests : list jsstring
}.

Definition setMessages (f : list Message -> list Message) (w : World) : World :=
  mkWorld (f (messages w)) (isLoading w) (error w) (isOpen w) (storage w) (requests w).

Definition setIsLoading (b : bool) (w : World) : World :=
  mkWorld (messages w) b (error w) (isOpen w) (storage w) (requests w).

Definition setError (e : option jsstring) (w : World) : World :=
  mkWorld (messages w) (isLoading w) e (isOpen w) (storage w) (requests w).

Definition setIsOpen (f : bool -> bool) (w : World) : World :=
  mkWorld (messages w) (isLoading w) (error w) (f (isOpen w)) (storage w) (requests w).

(** Modelled from the spec: the setter half of [useLocalStorage]; the
    write replaces the stored value wholesale. *)
Definition setStoredMessages (turns : list Message) (w : World) : World :=
  mkWorld (messages w) (isLoading w) (error w) (isOpen w) (Snapshot turns) (requests w).

(** The request leaving for the gateway. *)
Definition request (query : jsstring) (w : World) : World :=
  mkWorld (messages w) (isLoading w) (error w) (isOpen w) (storage w)
          (requests w ++ [query]).

(** ** hooks/useChat.ts *)

Module useChat.

Definition init (initialMessages : list Message) (isOpen0 : bool)
    (v : StoredValue) : World :=
  mkWorld initialMessages false None isOpen0 v [].

Definition userMessage (f : Fresh) (content0 : jsstring) : Message :=
  mkMessage (uuid f) user content0 (now f) None.

Definition assistantMessage (f : Fresh) (r : ChatResponse) : Message :=
  mkMessage (uuid f) assistant (response r) (now f) (Some (resp_sources r)).

(** [err instanceof Error ? err.message : 'Failed to send message'] *)
Definition errorMessage (err : Thrown) : jsstring :=
  match err with
  | ErrorObj message => message
  | NotAnError => lit "Failed to send message"
  end.

Definition apology (errorMessage0 : jsstring) : jsstring :=
  lit "Sorry, I encountered an error: " ++ errorMessage0
    ++ lit ". Please try again.".

Definition errorMsg (f : Fresh) (errorMessage0 : jsstring) : Message :=
  mkMessage (uuid f) assistant (apology errorMessage0) (now f) None.

(** [sendMessage] from its entry to the [await]: the three state updates
    and the call of [ChatAPI.sendQuery]. *)
Definition sendMessage_call (f : Fresh) (content0 : jsstring) (w : World) : World :=
  let w := setIsLoading true w in
  let w := setError None w in
  let w := setMessages (fun prev => prev ++ [userMessage f content0]) w in
  request content0 w.

(** [sendMessage] from the [await] on, when the gateway promise has
    settled with [o]: the rest of the try block or the catch block, then
    the finally block. *)
Definition sendMessage_settle (f : Fresh) (o : Outcome ChatResponse) (w : World) : World :=
  let w :=
    match o with
    | Returned r =>
        setMessages (fun prev => prev ++ [assistantMessage f r]) w
    | Threw err =>
        let w := setError (Some (errorMessage err)) w in
        setMessages (fun prev => prev ++ [errorMsg f (errorMessage err)]) w
    end in
  setIsLoading false w.

Definition clearMessages (w : World) : World :=
  setError None (setMessages (fun _ => []) w).

End useChat.

(** ** components/ChatContext/ChatProvider.tsx *)

Module ChatProvider.

Definition MAX_STORED_MESSAGES : Z := 50.

Definition persistMessages (msgs : list Message) (w : World) : World :=
  let recentMessages := slice (- MAX_STORED_MESSAGES) msgs in
  setStoredMessages recentMessages w.

(** The effect with dependencies [messages, persistMessages]; it runs
    after every render in which [messages] is a new array. *)
Definition persistEffect (w : World) : World :=
  if (0 <? Z.of_nat (length (messages w)))%Z
  then persistMessages (messages w) w
  else w.

(** First render: [storedMessages] read from storage with fallback [[]]
    seeds [useChat]; then the effect runs. *)
Definition mount (v : StoredValue) : World :=
  let storedMessages := readStored [] v in
  persistEffect (useChat.init storedMessages false v).

Definition sendMessage_call (f : Fresh) (content0 : jsstring) (w : World) : World :=
  persistEffect (useChat.sendMessage_call f content0 w).

Definition sendMessage_settle (f : Fresh) (o : Outcome ChatResponse) (w : World) : World :=
  persistEffect (useChat.sendMessage_settle f o w).

Definition clearHistory (w : World) : World :=
  let w := useChat.clearMessages w in
  let w := setStoredMessages [] w in
  let w := setError None w in
  persistEffect w.

Definition toggleChat (w : World) : World :=
  setIsOpen negb w.

End ChatProvider.

(** The value the provider hands to its consumers
    (types.ts, [ChatContextType]): the state fields and the actions. *)
Record ChatContextType := mkContext {
  ctx_messages : list Message;
  ctx_isOpen : bool;
  ctx_isLoading : bool;
  ctx_error : option jsstring;
  ctx_sendMessage : Fresh -> jsstring -> World -> World;
  ctx_clearHistory : World -> World;
  ctx_toggleChat : World -> World;
  ctx_setError : option jsstring -> World -> World
}.

Definition contextValue (w : World) : ChatContextType :=
  mkContext (messages w) (isOpen w) (isLoading w) (error w)
            ChatProvider.sendMessage_call
            ChatProvider.clearHistory
            ChatProvider.toggleChat
            setError.

(** ** components/ChatContext/useChatContext.ts

    [useContext(ChatContext)] gives [undefined] (here [None]) when no
    provider is above the caller. *)
Definition useChatContext (context : option ChatContextType) : Outcome ChatContextType :=
  match context with
  | None => Threw (ErrorObj (lit "useChatContext must be used within a ChatProvider"))
  | Some c => Returned c
  end.

(** [a === b] on strings. *)
Fixpoint str_eqb (a b : jsstring) : bool :=
  match a, b with
  | [], [] => true
  | x :: a', y :: b' => (x =? y)%N && str_eqb a' b'
  | _, _ => false
  end.

(** ** components/ChatWidget/ChatInput.tsx *)

Module ChatInput.

(** [handleSend] with the component's [input] state and its two props;
    the result is the new [input] and the world after [onSend]. *)
Definition handleSend (onSend : jsstring -> World -> World) (disabled : bool)
    (input : jsstring) (w : World) : jsstring * World :=
  let trimmed := trim input in
  if truthy trimmed && negb disabled
  then (lit "", onSend trimmed w)
  else (input, w).

Definition MAX_LENGTH : Z := 500.

(** [handleInput]: the new [input] and the height given to the textarea,
    [Math.min(textarea.scrollHeight, maxHeight)] pixels. *)
Definition handleInput (value : jsstring) (scrollHeight : Z) : jsstring * Z :=
  let maxHeight := 120%Z in
  (value, Z.min scrollHeight maxHeight).

(** [handleKeyDown]: whether [preventDefault] was called, then the new
    [input] and the world. *)
Definition handleKeyDown (onSend : jsstring -> World -> World) (disabled : bool)
    (key : jsstring) (shiftKey : bool) (input : jsstring) (w : World)
  : bool * (jsstring * World) :=
  if str_eqb key (lit "Enter") && negb shiftKey
  then (true, handleSend onSend disabled input w)
  else (false, (input, w)).

Definition remainingChars (input : jsstring) : Z :=
  MAX_LENGTH - Z.of_nat (length input).

Definition isOverLimit (input : jsstring) : bool :=
  (remainingChars input <? 0)%Z.

(** The [disabled] attribute of the send button. *)
Definition sendButtonDisabled (disabled : bool) (input : jsstring) : bool :=
  disabled || negb (truthy (trim input)) || isOverLimit input.

(** Whether the character counter is rendered. *)
Definition counterShown (input : jsstring) : bool :=
  (remainingChars input <? 50)%Z.

End ChatInput.

(** ** components/ChatWidget/ChatPanel.tsx

    The panel renders [<ChatInput onSend={sendMessage} disabled={isLoading} />]
    with both taken from the context. *)
Definition ChatPanel_handleSend (f : Fresh) (input : jsstring) (w : World)
  : jsstring * World :=
  let c := contextValue w in
  ChatInput.handleSend (ctx_sendMessage c f) (ctx_isLoading c) input w.

(** ** Whole sends and runs *)

(** One send together with what the world answers: the fresh values for
    the user message, the text, the network's behaviour and the fresh
    values for the reply message. *)
Record Send := mkSend {
  asked : Fresh;
  text : jsstring;
  network : ChatAPI.Network;
  answered : Fresh
}.

Definition gateway (s : Send) : Outcome ChatResponse :=
  ChatAPI.sendQuery (network s) (text s).

(** A send that settles before anything else happens. *)
Definition send_settled (s : Send) (w : World) : World :=
  ChatProvider.sendMessage_settle (answered s) (gateway s)
    (ChatProvider.sendMessage_call (asked s) (text s) w).

Definition run_sends (ss : list Send) (w : World) : World :=
  fold_left (fun w s => send_settled s w) ss w.

(** The reply turn of a send. *)
Definition reply (s : Send) : Message :=
  match gateway s with
  | Returned r => useChat.assistantMessage (answered s) r
  | Threw err => useChat.errorMsg (answered s) (useChat.errorMessage err)
  end.

Definition turns_of (s : Send) : list Message :=
  [useChat.userMessage (asked s) (text s); reply s].

(** The provider's transitions. *)
Inductive Action :=
| CallSend (f : Fresh) (content0 : jsstring)
| SettleSend (f : Fresh) (o : Outcome ChatResponse)
| ClearHistory
| ToggleChat.

Definition step (a : Action) (w : World) : World :=
  match a with
  | CallSend f content0 => ChatProvider.sendMessage_call f content0 w
  | SettleSend f o => ChatProvider.sendMessage_settle f o w
  | ClearHistory => ChatProvider.clearHistory w
  | ToggleChat => ChatProvider.toggleChat w
  end.

(** The descriptive message a failed gateway call carries, if any, in the
    design document's words: the message of an [Error], or the non-empty
    [error] field of an error response. *)
Definition descriptive (r : ChatAPI.FetchResult) : option jsstring :=
  match r with
  | ChatAPI.FetchRejected (ErrorObj m) => Some m
  | ChatAPI.NotOk (Threw (ErrorObj m)) => Some m
  | ChatAPI.Ok (Threw (ErrorObj m)) => Some m
  | ChatAPI.NotOk (Returned e) =>
      if truthy (err_error e) then Some (err_error e) else None
  | _ => None
  end.

Definition fallbacks : list jsstring :=
  [lit "Failed to get response"; lit "Failed to send message"].

(** The worlds a session can be in: a first render over any stored
    value, then any transitions. *)
Inductive reachable : World -> Prop :=
| reach_mount (v : StoredValue) : reachable (ChatProvider.mount v)
| reach_step (a : Action) (w : World) : reachable w -> reachable (step a w).

(** ** components/ChatWidget/MessageBubble.tsx *)

Module MessageBubble.

Record SourceLink := mkSourceLink {
  link_to : jsstring;
  link_text : jsstring
}.

(** What a bubble shows: which of the two styles it has, the text, the
    sources block when there is one, and the instant given to the time
    formatter. *)
Record View := mkView {
  isUser : bool;
  body : jsstring;
  sourcesBlock : option (list SourceLink);
  time : Z
}.

Definition sourceLink (source : Source) : SourceLink :=
  mkSourceLink (url source)
    (title source ++
     (if truthy (module source) then lit " (" ++ module source ++ lit ")" else [])).

Definition render (message : Message) : View :=
  let isUser0 := match role message with user => true | assistant => false end in
  mkView isUser0 (content message)
    (if negb isUser0
     then match sources message with
          | Some ss => if (0 <? Z.of_nat (length ss))%Z
                       then Some (map sourceLink ss) else None
          | None => None
          end
     else None)
    (timestamp message).

End MessageBubble.

(** ** components/ChatWidget/MessageList.tsx *)

Module MessageList.

Record View := mkView {
  emptyState : bool;
  bubbles : list MessageBubble.View;
  loadingIndicator : bool
}.

Definition render (messages0 : list Message) (isLoading0 : bool) : View :=
  mkView (Z.of_nat (length messages0) =? 0)%Z
         (map MessageBubble.render messages0)
         isLoading0.

End MessageList.

(** ** What the panel renders (ChatPanel.tsx) *)

Module ChatPanel.

Record View := mkView {
  clearButton : bool;
  messageList : MessageList.View;
  inputDisabled : bool
}.

(** [None] is the [null] returned while the panel is closed. *)
Definition render (c : ChatContextType) : option View :=
  if negb (ctx_isOpen c) then None
  else Some (mkView (0 <? Z.of_nat (length (ctx_messages c)))%Z
                    (MessageList.render (ctx_messages c) (ctx_isLoading c))
                    (ctx_isLoading c)).

End ChatPanel.

(** ** The widget as the user drives it

    The session, the draft in the input box and the number of gateway
    promises that have settled.  A request is outstanding while the
    requests outnumber the settled promises. *)
Record UI := mkUI {
  world : World;
  input : jsstring;
  settled : nat
}.

Definition outstanding (u : UI) : nat :=
  length (requests (world u)) - settled u.

(** What can happen to the widget.  The input events are delivered
    whether or not the element carries the [disabled] attribute, which is
    more than a browser does; the handlers' own tests decide. *)
Inductive Event :=
| Typed (value : jsstring) (scrollHeight : Z)
| KeyDown (key : jsstring) (shiftKey : bool) (f : Fresh)
| ClickSend (f : Fresh)
| ClickClear
| ClickToggle
| Settles (f : Fresh) (o : Outcome ChatResponse).

(** The input box and the clear button exist only while the panel is
    open, and the draft is lost when the panel closes; a promise settles
    only while a request is outstanding. *)
Definition ui_step (u : UI) (e : Event) : UI :=
  let w := world u in
  let c := contextValue w in
  match e with
  | Typed value scrollHeight =>
      if isOpen w
      then mkUI w (fst (ChatInput.handleInput value scrollHeight)) (settled u)
      else u
  | KeyDown key shiftKey f =>
      if isOpen w
      then let r := ChatInput.handleKeyDown (ctx_sendMessage c f) (ctx_isLoading c)
                      key shiftKey (input u) w in
           mkUI (snd (snd r)) (fst (snd r)) (settled u)
      else u
  | ClickSend f =>
      if isOpen w
      then let r := ChatInput.handleSend (ctx_sendMessage c f) (ctx_isLoading c)
                      (input u) w in
           mkUI (snd r) (fst r) (settled u)
      else u
  | ClickClear =>
      if isOpen w then mkUI (ctx_clearHistory c w) (input u) (settled u) else u
  | ClickToggle =>
      mkUI (ctx_toggleChat c w) [] (settled u)
  | Settles f o =>
      if (0 <? outstanding u)%nat
      then mkUI (ChatProvider.sendMessage_settle f o w) (input u) (S (settled u))
      else u
  end.

Definition ui_init (v : StoredValue) : UI :=
  mkUI (ChatProvider.mount v) [] 0.

Definition ui_run (v : StoredValue) (es : list Event) : UI :=
  fold_left ui_step es (ui_init v).

(** A string that is not empty and has no white space at either end:
    its first and its last code unit are not white space (the default, a
    space, stands for the missing unit of the empty string). *)
Definition stripped (s : jsstring) : bool :=
  negb (isWhiteSpace (hd 0x20%N s)) && negb (isWhiteSpace (last s 0x20%N)).

(** What every run keeps: the settled promises never outnumber the
    requests, a request is outstanding exactly while [isLoading] is
    true, and every request is a stripped text. *)
Definition ui_ok (u : UI) : Prop :=
  (settled u <= length (requests (world u)))%nat /\
  outstanding u = (if isLoading (world u) then 1 else 0)%nat /\
  Forall (fun q => stripped q = true) (requests (world u)).

(** The turn [sendMessage] appends when its gateway promise settles. *)
Definition settle_turn (f : Fresh) (o : Outcome ChatResponse) : Message :=
  match o with
  | Returned r => useChat.assistantMessage f r
  | Threw err => useChat.errorMsg f (useChat.errorMessage err)
  end.

(** ** Sample worlds *)

Definition fresh1 : Fresh := mkFresh (lit "id-1") 1000.
Definition fresh2 : Fresh := mkFresh (lit "id-2") 2000.
Definition fresh3 : Fresh := mkFresh (lit "id-3") 3000.
Definition fresh4 : Fresh := mkFresh (lit "id-4") 4000.

(** A fresh session with nothing stored. *)
Definition idle : World := ChatProvider.mount Absent.

(** The same session with one send in flight. *)
Definition busy : World :=
  ChatProvider.sendMessage_call fresh1 (lit "What is ROS 2?") idle.

Definition ros2_source : Source :=
  mkSource (lit "ROS 2 Intro") (lit "/docs/ros2") (lit "robotics") None.

(** A backend that answers the first question of the design document's
    scenario and reports a rate limit for anything else. *)
Definition scenario_network : ChatAPI.Network :=
  fun query =>
    if list_eq_dec N.eq_dec query (lit "What is ROS 2?")
    then ChatAPI.Ok (Returned (mkChatResponse (lit "ROS 2 is...") [ros2_source]))
    else ChatAPI.NotOk (Returned (mkChatError (lit "rate limited") (lit "429"))).

Definition send_ok : Send :=
  mkSend fresh1 (lit "What is ROS 2?") scenario_network fresh2.

Definition send_failing : Send :=
  mkSend fresh3 (lit "trigger failure") scenario_network fresh4.

(** A visit: the panel is opened, a question is typed and sent with
    Enter, and the send button is clicked while the answer is awaited. *)
Definition visit : list Event :=
  [ClickToggle; Typed (lit " What is ROS 2? ") 24; KeyDown (lit "Enter") false fresh1;
   Typed (lit "And Gazebo?") 24; ClickSend fresh2].

(** * Properties *)

(** ** Strings and arrays *)

Section Trim.

Lemma trimStart_nil_iff (s : jsstring) :
  trimStart s = [] <-> forallb isWhiteSpace s = true.
Proof.
  induction s as [|c r IH]; simpl.
  - split; reflexivity.
  - destruct (isWhiteSpace c); simpl.
    + exact IH.
    + split; discriminate.
Qed.

Lemma trimStart_head (s : jsstring) :
  forallb isWhiteSpace (trimStart s) = true -> trimStart s = [].
Proof.
  induction s as [|c r IH]; simpl; [reflexivity|].
  destruct (isWhiteSpace c) eqn:E; [exact IH|].
  simpl. rewrite E. discriminate.
Qed.

Lemma forallb_rev (A : Type) (p : A -> bool) (l : list A) :
  forallb p (rev l) = forallb p l.
Proof.
  induction l as [|a l IH]; simpl; [reflexivity|].
  rewrite forallb_app, IH. simpl. rewrite andb_true_r. apply andb_comm.
Qed.

Lemma trimEnd_nil_iff (s : jsstring) :
  trimEnd s = [] <-> forallb isWhiteSpace s = true.
Proof.
  unfold trimEnd. rewrite <- (forallb_rev isWhiteSpace s), <- trimStart_nil_iff.
  split; intro H.
  - apply (f_equal (@rev code_unit)) in H. rewrite rev_involutive in H. exact H.
  - rewrite H. reflexivity.
Qed.

(** A string trims to the empty string exactly when it is empty or made
    of white space only. *)
Lemma trim_nil_iff (s : jsstring) :
  trim s = [] <-> forallb isWhiteSpace s = true.
Proof.
  unfold trim. rewrite trimEnd_nil_iff. split; intro H.
  - apply trimStart_nil_iff, trimStart_head, H.
  - apply trimStart_nil_iff in H. rewrite H. reflexivity.
Qed.

End Trim.

Section Slice.

Variable A : Type.

Lemma slice_negative (n : nat) (l : list A) :
  (0 < n)%nat -> slice (- Z.of_nat n) l = skipn (length l - n) l.
Proof.
  intro Hn. unfold slice.
  replace (- Z.of_nat n <? 0)%Z with true by (symmetry; apply Z.ltb_lt; lia).
  f_equal. lia.
Qed.

Lemma last_turns_skipn (n : nat) (l : list A) :
  last_turns n l = skipn (length l - n) l.
Proof.
  unfold last_turns. rewrite firstn_rev, rev_involutive. f_equal. lia.
Qed.

(** The code's [slice(-n)] is the design document's "last [min n length]
    turns". *)
Lemma slice_last_turns (n : nat) (l : list A) :
  (0 < n)%nat -> slice (- Z.of_nat n) l = last_turns n l.
Proof.
  intro Hn. rewrite slice_negative, last_turns_skipn by exact Hn. reflexivity.
Qed.

Lemma last_turns_length (n : nat) (l : list A) :
  length (last_turns n l) = Nat.min n (length l).
Proof. rewrite last_turns_skipn, length_skipn. lia. Qed.

Lemma last_turns_suffix (n : nat) (l : list A) :
  firstn (length l - n) l ++ last_turns n l = l.
Proof. rewrite last_turns_skipn. apply firstn_skipn. Qed.

Lemma last_turns_all (n : nat) (l : list A) :
  (length l <= n)%nat -> last_turns n l = l.
Proof.
  intro H. rewrite last_turns_skipn.
  replace (length l - n)%nat with 0%nat by lia. reflexivity.
Qed.

Lemma last_turns_nonempty (n : nat) (l : list A) :
  (0 < n)%nat -> l <> [] -> last_turns n l <> [].
Proof.
  intros Hn Hl E. apply (f_equal (@length A)) in E.
  rewrite last_turns_length in E. destruct l; [congruence|]. simpl in E. lia.
Qed.

End Slice.

(** ** The persistence effect *)

Lemma persistMessages_storage (msgs : list Message) (w : World) :
  storage (ChatProvider.persistMessages msgs w) = Snapshot (last_turns 50 msgs).
Proof.
  unfold ChatProvider.persistMessages, ChatProvider.MAX_STORED_MESSAGES. simpl.
  f_equal. apply (slice_last_turns (n := 50)). lia.
Qed.

Lemma persistEffect_empty (w : World) :
  messages w = [] -> ChatProvider.persistEffect w = w.
Proof. intro H. unfold ChatProvider.persistEffect. rewrite H. reflexivity. Qed.

Lemma persistEffect_storage (w : World) :
  messages w <> [] ->
  storage (ChatProvider.persistEffect w) = Snapshot (last_turns 50 (messages w)).
Proof.
  intro H. unfold ChatProvider.persistEffect.
  destruct (messages w) as [|m l] eqn:E; [congruence|].
  replace (0 <? Z.of_nat (length (m :: l)))%Z with true
    by (symmetry; apply Z.ltb_lt; simpl; lia).
  apply persistMessages_storage.
Qed.

(** The effect touches the stored value and nothing else. *)
Lemma persistEffect_frame (w : World) :
  messages (ChatProvider.persistEffect w) = messages w /\
  isLoading (ChatProvider.persistEffect w) = isLoading w /\
  error (ChatProvider.persistEffect w) = error w /\
  isOpen (ChatProvider.persistEffect w) = isOpen w /\
  requests (ChatProvider.persistEffect w) = requests w.
Proof.
  unfold ChatProvider.persistEffect.
  destruct (0 <? Z.of_nat (length (messages w)))%Z; repeat split; reflexivity.
Qed.

(** ** The send path *)

(** C1, as the code has it: the single-flight gate is the [disabled] prop
    of the input component.  While [isLoading] is true the panel's
    [handleSend] does nothing for any draft: [sendMessage] is not called,
    so no turn is appended, no request leaves, the session state is the
    same and the draft stays in the box. *)
Theorem handleSend_while_busy_is_noop (f : Fresh) (input : jsstring) (w : World) :
  isLoading w = true ->
  ChatPanel_handleSend f input w = (input, w).
Proof.
  intro H. unfold ChatPanel_handleSend, ChatInput.handleSend. simpl.
  rewrite H, andb_false_r. reflexivity.
Qed.

Lemma handleSend_while_busy_witness :
  isLoading busy = true /\
  ChatPanel_handleSend fresh2 (lit "And Gazebo?") busy = (lit "And Gazebo?", busy).
Proof.
  split; [reflexivity|].
  apply (handleSend_while_busy_is_noop fresh2 (lit "And Gazebo?") busy).
  reflexivity.
Defined.

(** C1 as stated fails for [sendMessage] itself, which has no guard:
    called while a send is in flight it appends a user turn and issues a
    second request. *)
Lemma sendMessage_while_busy_not_rejected :
  let w' := ChatProvider.sendMessage_call fresh2 (lit "And Gazebo?") busy in
  isLoading busy = true /\
  messages w' = messages busy ++ [useChat.userMessage fresh2 (lit "And Gazebo?")] /\
  requests w' = requests busy ++ [lit "And Gazebo?"] /\
  w' <> busy.
Proof.
  repeat split; try reflexivity.
  intro E. apply (f_equal requests) in E. vm_compute in E. discriminate E.
Qed.

(** C2, as the code has it: validation is the [trimmed] test of the input
    component.  For a draft that is empty or white space only,
    [handleSend] does not call [onSend], whatever [disabled] is: no turn,
    no request, [isLoading] and the rest of the state unchanged. *)
Theorem handleSend_blank_is_noop (onSend : jsstring -> World -> World)
    (disabled : bool) (f : Fresh) (input : jsstring) (w : World) :
  forallb isWhiteSpace input = true ->
  ChatInput.handleSend onSend disabled input w = (input, w) /\
  ChatPanel_handleSend f input w = (input, w).
Proof.
  intro H. apply trim_nil_iff in H.
  unfold ChatPanel_handleSend, ChatInput.handleSend. rewrite H. simpl.
  split; reflexivity.
Qed.

Lemma handleSend_blank_witness :
  forallb isWhiteSpace (lit "   ") = true /\
  ChatInput.handleSend (ChatProvider.sendMessage_call fresh1) false (lit "   ") idle
    = (lit "   ", idle) /\
  ChatPanel_handleSend fresh1 (lit "   ") idle = (lit "   ", idle).
Proof.
  split; [reflexivity|].
  apply (handleSend_blank_is_noop (ChatProvider.sendMessage_call fresh1) false
           fresh1 (lit "   ") idle).
  reflexivity.
Defined.

(** A draft with anything but white space in it, in an enabled input, is
    sent trimmed and the input is emptied. *)
Lemma handleSend_sends_trimmed (onSend : jsstring -> World -> World)
    (input : jsstring) (w : World) :
  forallb isWhiteSpace input = false ->
  ChatInput.handleSend onSend false input w = ([], onSend (trim input) w).
Proof.
  intro H. unfold ChatInput.handleSend.
  destruct (trim input) as [|c r] eqn:E; [|reflexivity].
  apply trim_nil_iff in E. congruence.
Qed.

(** C2 as stated fails for [sendMessage] itself, which does not look at
    its argument: with the empty string or with three spaces it appends a
    user turn, issues a request and raises [isLoading]. *)
Lemma sendMessage_blank_not_ignored :
  let w1 := ChatProvider.sendMessage_call fresh1 (lit "") idle in
  let w2 := ChatProvider.sendMessage_call fresh1 (lit "   ") idle in
  (trim (lit "") = [] /\ trim (lit "   ") = []) /\
  (messages idle = [] /\ requests idle = [] /\ isLoading idle = false) /\
  (messages w1 = [useChat.userMessage fresh1 (lit "")] /\
   requests w1 = [lit ""] /\ isLoading w1 = true) /\
  (messages w2 = [useChat.userMessage fresh1 (lit "   ")] /\
   requests w2 = [lit "   "] /\ isLoading w2 = true).
Proof. repeat split. Qed.

(** C3: however the gateway call settles (an answer, an [Error] thrown,
    anything else thrown), [isLoading] is false once [sendMessage] has
    run to its end. *)
Theorem isLoading_released (f : Fresh) (o : Outcome ChatResponse) (s : Send) (w : World) :
  isLoading (useChat.sendMessage_settle f o w) = false /\
  isLoading (ChatProvider.sendMessage_settle f o w) = false /\
  isLoading (send_settled s w) = false.
Proof.
  assert (H : forall f o w, isLoading (ChatProvider.sendMessage_settle f o w) = false).
  { intros f' o' w'. unfold ChatProvider.sendMessage_settle.
    destruct (persistEffect_frame (useChat.sendMessage_settle f' o' w')) as (_ & -> & _).
    reflexivity. }
  split; [reflexivity|]. split; apply H.
Qed.

(** C9: without a provider [useChatContext] throws an [Error]; with one
    it returns the provider's value as it is. *)
Theorem useChatContext_throws_without_provider :
  useChatContext None
    = Threw (ErrorObj (lit "useChatContext must be used within a ChatProvider")) /\
  (forall c : ChatContextType, useChatContext (Some c) = Returned c) /\
  (forall w : World, useChatContext (Some (contextValue w)) = Returned (contextValue w)).
Proof. repeat split. Qed.

Lemma persistEffect_messages (w : World) :
  messages (ChatProvider.persistEffect w) = messages w.
Proof. apply persistEffect_frame. Qed.

Lemma persistEffect_error (w : World) :
  error (ChatProvider.persistEffect w) = error w.
Proof. apply persistEffect_frame. Qed.

Lemma send_settled_messages (s : Send) (w : World) :
  messages (send_settled s w) = messages w ++ turns_of s.
Proof.
  unfold send_settled, ChatProvider.sendMessage_settle, ChatProvider.sendMessage_call.
  rewrite persistEffect_messages.
  unfold useChat.sendMessage_settle, turns_of, reply.
  destruct (gateway s) as [r|err]; simpl;
    rewrite persistEffect_messages; simpl; rewrite <- app_assoc; reflexivity.
Qed.

Lemma send_settled_error (s : Send) (w : World) :
  error (send_settled s w)
    = match gateway s with
      | Returned _ => None
      | Threw err => Some (useChat.errorMessage err)
      end.
Proof.
  unfold send_settled, ChatProvider.sendMessage_settle, ChatProvider.sendMessage_call.
  rewrite persistEffect_error. unfold useChat.sendMessage_settle.
  destruct (gateway s) as [r|err]; simpl; [|reflexivity].
  rewrite persistEffect_error. reflexivity.
Qed.

(** The message of a failed gateway call is the descriptive one when the
    failure carries one, and one of the two fixed strings otherwise. *)
Lemma errorMessage_derivation (fetch : ChatAPI.Network) (query : jsstring) (err : Thrown) :
  ChatAPI.sendQuery fetch query = Threw err ->
  match descriptive (fetch query) with
  | Some d => useChat.errorMessage err = d
  | None => In (useChat.errorMessage err) fallbacks
  end.
Proof.
  unfold ChatAPI.sendQuery.
  destruct (fetch query) as [e | [e0|e] | [r|e]]; intro H;
    try discriminate H; injection H as <-; simpl.
  - destruct e; simpl; auto.
  - unfold or_else. destruct (truthy (err_error e0)); simpl; auto.
  - destruct e; simpl; auto.
  - destruct e; simpl; auto.
Qed.

(** C4: when the gateway call of a send fails, the log gains the user's
    turn and after it exactly one assistant turn, the apology built around
    the failure's message; [error] holds that message; the message is the
    one the failure carries when it carries one and a fixed fallback
    string otherwise. *)
Theorem gateway_failure_is_visible (s : Send) (w : World) (err : Thrown) :
  gateway s = Threw err ->
  let m := useChat.errorMessage err in
  messages (send_settled s w)
    = messages w ++
      [useChat.userMessage (asked s) (text s);
       mkMessage (uuid (answered s)) assistant
         (lit "Sorry, I encountered an error: " ++ m ++ lit ". Please try again.")
         (now (answered s)) None] /\
  error (send_settled s w) = Some m /\
  match descriptive (network s (text s)) with
  | Some d => m = d
  | None => In m fallbacks
  end.
Proof.
  intros H m. split; [|split].
  - rewrite send_settled_messages. unfold turns_of, reply. rewrite H. reflexivity.
  - rewrite send_settled_error, H. reflexivity.
  - apply errorMessage_derivation, H.
Qed.

Lemma gateway_failure_witness :
  gateway send_failing = Threw (ErrorObj (lit "rate limited")) /\
  messages (send_settled send_failing idle)
    = [useChat.userMessage fresh3 (lit "trigger failure");
       mkMessage (lit "id-4") assistant
         (lit "Sorry, I encountered an error: rate limited. Please try again.")
         4000 None] /\
  error (send_settled send_failing idle) = Some (lit "rate limited").
Proof.
  assert (H : gateway send_failing = Threw (ErrorObj (lit "rate limited")))
    by reflexivity.
  split; [exact H|].
  destruct (gateway_failure_is_visible send_failing idle H) as (Hm & He & _).
  split; [exact Hm | exact He].
Defined.

(** ** Ordering *)

(** C6: for sends that each settle before the next is issued, the log
    grows by one user turn and its reply per send, in the order of the
    sends, so the roles alternate user, assistant, user, assistant. *)
Theorem log_alternates (ss : list Send) (w : World) :
  messages (run_sends ss w) = messages w ++ flat_map turns_of ss /\
  map role (flat_map turns_of ss) = flat_map (fun _ => [user; assistant]) ss /\
  messages (run_sends ss idle) = flat_map turns_of ss.
Proof.
  assert (H : forall ss w, messages (run_sends ss w) = messages w ++ flat_map turns_of ss).
  { clear. induction ss as [|s ss IH]; intro w; simpl.
    - symmetry. apply app_nil_r.
    - unfold run_sends in IH. rewrite IH, send_settled_messages, <- app_assoc.
      reflexivity. }
  split; [apply H|]. split; [|apply H].
  induction ss as [|s ss IH]; simpl; [reflexivity|].
  rewrite IH. unfold reply. destruct (gateway s); reflexivity.
Qed.

(** The design document's scenario: a first send that is answered with
    one source, then a send that the backend refuses. *)
Example design_scenario :
  let w1 := send_settled send_ok idle in
  let w2 := send_settled send_failing w1 in
  messages w1
    = [mkMessage (lit "id-1") user (lit "What is ROS 2?") 1000 None;
       mkMessage (lit "id-2") assistant (lit "ROS 2 is...") 2000 (Some [ros2_source])] /\
  isLoading w1 = false /\ error w1 = None /\
  messages w2
    = messages w1 ++
      [mkMessage (lit "id-3") user (lit "trigger failure") 3000 None;
       mkMessage (lit "id-4") assistant
         (lit "Sorry, I encountered an error: rate limited. Please try again.")
         4000 None] /\
  isLoading w2 = false /\ error w2 = Some (lit "rate limited") /\
  requests w2 = [lit "What is ROS 2?"; lit "trigger failure"].
Proof. vm_compute. repeat split. Qed.

(** ** Persistence *)

(** Every transition but [toggleChat] ends with the effect. *)
Lemma step_effect (a : Action) (w : World) :
  a = ToggleChat \/ exists w0, step a w = ChatProvider.persistEffect w0.
Proof.
  destruct a; [right | right | right | left; reflexivity]; eexists; reflexivity.
Qed.

Lemma toggleChat_messages (w : World) :
  messages (ChatProvider.toggleChat w) = messages w.
Proof. reflexivity. Qed.

(** C5: after a transition that changes the log and leaves it non-empty,
    the stored snapshot is the last [min 50 length] turns of the log: it
    is a suffix of the log and has that length, so once more than 50
    turns have accumulated it holds the 50 most recent ones. *)
Theorem snapshot_is_recent_window (a : Action) (w : World) :
  messages (step a w) <> messages w ->
  messages (step a w) <> [] ->
  storage (step a w) = Snapshot (last_turns 50 (messages (step a w))) /\
  firstn (length (messages (step a w)) - 50) (messages (step a w))
    ++ last_turns 50 (messages (step a w)) = messages (step a w) /\
  length (last_turns 50 (messages (step a w)))
    = Nat.min 50 (length (messages (step a w))).
Proof.
  intros Hchange Hne. split; [|split].
  - destruct (step_effect a w) as [-> | [w0 E]].
    + exfalso. apply Hchange. apply toggleChat_messages.
    + rewrite E in *. rewrite persistEffect_messages in *.
      apply persistEffect_storage, Hne.
  - apply last_turns_suffix.
  - apply last_turns_length.
Qed.

Lemma snapshot_is_recent_window_witness :
  let w' := step (CallSend fresh1 (lit "What is ROS 2?")) idle in
  messages w' <> messages idle /\
  messages w' <> [] /\
  storage w' = Snapshot (last_turns 50 (messages w')).
Proof.
  assert (H1 : messages (step (CallSend fresh1 (lit "What is ROS 2?")) idle)
               <> messages idle) by (vm_compute; discriminate).
  assert (H2 : messages (step (CallSend fresh1 (lit "What is ROS 2?")) idle) <> [])
    by (vm_compute; discriminate).
  split; [exact H1|]. split; [exact H2|].
  exact (proj1 (snapshot_is_recent_window
                  (CallSend fresh1 (lit "What is ROS 2?")) idle H1 H2)).
Defined.

(** The same as an invariant of every session: whenever the log is not
    empty, the stored snapshot is its recent window. *)
Lemma snapshot_invariant (w : World) :
  reachable w ->
  messages w <> [] ->
  storage w = Snapshot (last_turns 50 (messages w)).
Proof.
  induction 1 as [v | a w Hw IH]; intro Hne.
  - unfold ChatProvider.mount in *. rewrite persistEffect_messages in *.
    apply persistEffect_storage, Hne.
  - destruct (step_effect a w) as [-> | [w0 E]].
    + apply IH, Hne.
    + rewrite E in *. rewrite persistEffect_messages in *.
      apply persistEffect_storage, Hne.
Qed.

(** Twenty-six settled sends give 52 turns, of which the snapshot keeps
    the last 50. *)
Example truncation_after_52_turns :
  let w := run_sends (repeat send_ok 26) idle in
  length (messages w) = 52%nat /\
  storage w = Snapshot (skipn 2 (messages w)).
Proof. vm_compute. split; reflexivity. Qed.

(** C7: after [clearHistory] the log is empty, [error] is null and the
    stored snapshot is the empty sequence, so the next first render
    starts from an empty log; clearing again changes nothing. *)
Theorem clearHistory_clears (w : World) :
  messages (ChatProvider.clearHistory w) = [] /\
  error (ChatProvider.clearHistory w) = None /\
  storage (ChatProvider.clearHistory w) = Snapshot [] /\
  messages (ChatProvider.mount (storage (ChatProvider.clearHistory w))) = [] /\
  ChatProvider.clearHistory (ChatProvider.clearHistory w) = ChatProvider.clearHistory w.
Proof. destruct w. repeat split. Qed.

(** C8: a log of at most 50 turns written by [persistMessages] is stored
    whole, and a first render over the stored value starts from exactly
    that log; the first render takes any stored sequence as it is. *)
Theorem persist_reload_roundtrip (log : list Message) (w : World) :
  (length log <= 50)%nat ->
  storage (ChatProvider.persistMessages log w) = Snapshot log /\
  messages (ChatProvider.mount (storage (ChatProvider.persistMessages log w))) = log /\
  (forall turns : list Message, messages (ChatProvider.mount (Snapshot turns)) = turns).
Proof.
  intro H.
  assert (E : storage (ChatProvider.persistMessages log w) = Snapshot log).
  { rewrite persistMessages_storage, last_turns_all by exact H. reflexivity. }
  assert (M : forall turns, messages (ChatProvider.mount (Snapshot turns)) = turns).
  { intro turns. unfold ChatProvider.mount. rewrite persistEffect_messages.
    reflexivity. }
  split; [exact E|]. split; [|exact M].
  rewrite E. apply M.
Qed.

Lemma persist_reload_roundtrip_witness :
  let log := messages (run_sends [send_ok; send_failing] idle) in
  (length log <= 50)%nat /\
  messages (ChatProvider.mount (storage (ChatProvider.persistMessages log idle))) = log.
Proof.
  assert (H : (length (messages (run_sends [send_ok; send_failing] idle)) <= 50)%nat)
    by (vm_compute; lia).
  split; [exact H|].
  exact (proj1 (proj2 (persist_reload_roundtrip
                         (messages (run_sends [send_ok; send_failing] idle)) idle H))).
Defined.

(** C10: with an empty log the effect changes nothing; the effect never
    turns the stored value into the empty sequence; and among the
    transitions only [clearHistory] does. *)
Theorem persistEffect_never_erases (a : Action) (w : World) :
  (messages w = [] -> ChatProvider.persistEffect w = w) /\
  (storage (ChatProvider.persistEffect w) = Snapshot [] -> storage w = Snapshot []) /\
  (storage (step a w) = Snapshot [] -> a = ClearHistory \/ storage w = Snapshot []).
Proof.
  assert (E : forall w0, storage (ChatProvider.persistEffect w0) = Snapshot [] ->
                         messages w0 = []).
  { intros w0 H. destruct (messages w0) as [|m l] eqn:Em; [reflexivity|].
    rewrite persistEffect_storage in H by (rewrite Em; discriminate).
    injection H as H. exfalso. revert H. apply last_turns_nonempty; [lia|].
    rewrite Em. discriminate. }
  split; [apply persistEffect_empty|]. split.
  - intro H. rewrite (persistEffect_empty w (E w H)) in H. exact H.
  - destruct a as [f c | f o | | ]; intro H.
    + apply E in H. unfold useChat.sendMessage_call in H. simpl in H.
      destruct (messages w); discriminate H.
    + apply E in H. unfold useChat.sendMessage_settle in H.
      destruct o; simpl in H; destruct (messages w); discriminate H.
    + left. reflexivity.
    + right. exact H.
Qed.

Lemma persistEffect_never_erases_witness :
  (messages idle = [] /\ ChatProvider.persistEffect idle = idle) /\
  (storage (ChatProvider.persistEffect (ChatProvider.clearHistory busy)) = Snapshot [] /\
   storage (ChatProvider.clearHistory busy) = Snapshot []) /\
  (storage (step ClearHistory busy) = Snapshot [] /\
   (ClearHistory = ClearHistory \/ storage busy = Snapshot [])).
Proof.
  split; [|split]; (split; [reflexivity|]).
  - exact (proj1 (persistEffect_never_erases ToggleChat idle) eq_refl).
  - exact (proj1 (proj2 (persistEffect_never_erases
                           ToggleChat (ChatProvider.clearHistory busy))) eq_refl).
  - exact (proj2 (proj2 (persistEffect_never_erases ClearHistory busy)) eq_refl).
Defined.

(** * Further properties of the code *)

(** ** What [trim] leaves *)

Lemma trimStart_split (s : jsstring) :
  exists before, s = before ++ trimStart s /\ forallb isWhiteSpace before = true.
Proof.
  induction s as [|c r (before & E & W)]; simpl.
  - exists []. split; reflexivity.
  - destruct (isWhiteSpace c) eqn:Ec.
    + exists (c :: before). simpl. rewrite Ec, W. split; [f_equal; exact E | reflexivity].
    + exists []. split; reflexivity.
Qed.

Lemma trimEnd_split (s : jsstring) :
  exists after, s = trimEnd s ++ after /\ forallb isWhiteSpace after = true.
Proof.
  destruct (trimStart_split (rev s)) as (before & E & W).
  exists (rev before). split.
  - unfold trimEnd. rewrite <- rev_app_distr, <- E. symmetry. apply rev_involutive.
  - rewrite forallb_rev. exact W.
Qed.

Lemma trimStart_hd (s : jsstring) (d : code_unit) :
  trimStart s <> [] -> isWhiteSpace (hd d (trimStart s)) = false.
Proof.
  induction s as [|c r IH]; simpl; [congruence|].
  destruct (isWhiteSpace c) eqn:Ec; [exact IH|]. intros _. exact Ec.
Qed.

Lemma trimStart_snoc (l : jsstring) (c : code_unit) :
  isWhiteSpace c = false -> trimStart (l ++ [c]) = trimStart l ++ [c].
Proof.
  intro Hc. induction l as [|x l IH]; simpl.
  - rewrite Hc. reflexivity.
  - destruct (isWhiteSpace x); [exact IH | reflexivity].
Qed.

Lemma trimEnd_cons (c : code_unit) (r : jsstring) :
  isWhiteSpace c = false -> trimEnd (c :: r) = c :: trimEnd r.
Proof.
  intro Hc. unfold trimEnd. simpl. rewrite trimStart_snoc by exact Hc.
  rewrite rev_app_distr. reflexivity.
Qed.

Lemma last_rev_hd (A : Type) (l : list A) (d : A) : last (rev l) d = hd d l.
Proof.
  destruct l as [|a l]; [reflexivity|]. simpl. apply last_last.
Qed.

Lemma trimEnd_last (s : jsstring) (d : code_unit) :
  trimEnd s <> [] -> isWhiteSpace (last (trimEnd s) d) = false.
Proof.
  unfold trimEnd. intro H. rewrite last_rev_hd. apply trimStart_hd.
  intro E. apply H. rewrite E. reflexivity.
Qed.

(** What [trim] returns is empty or has no white space at either end. *)
Lemma trim_stripped (s : jsstring) : trim s <> [] -> stripped (trim s) = true.
Proof.
  intro H. unfold stripped. apply andb_true_iff. split; apply negb_true_iff.
  - unfold trim in *. destruct (trimStart s) as [|c r] eqn:E; [exfalso; apply H; reflexivity|].
    assert (Hc : isWhiteSpace c = false).
    { change c with (hd 0x20%N (c :: r)). rewrite <- E. apply trimStart_hd.
      rewrite E. discriminate. }
    rewrite trimEnd_cons by exact Hc. exact Hc.
  - apply trimEnd_last. exact H.
Qed.

Lemma trim_split (s : jsstring) :
  exists before after,
    s = before ++ trim s ++ after /\
    forallb isWhiteSpace before = true /\ forallb isWhiteSpace after = true.
Proof.
  destruct (trimStart_split s) as (before & E1 & W1).
  destruct (trimEnd_split (trimStart s)) as (after & E2 & W2).
  exists before, after. unfold trim. rewrite <- E2. auto.
Qed.

Lemma trim_not_blank (s : jsstring) :
  forallb isWhiteSpace s = false -> trim s <> [].
Proof. intros H E. apply trim_nil_iff in E. congruence. Qed.

Lemma str_eqb_eq (a b : jsstring) : str_eqb a b = true <-> a = b.
Proof.
  revert b. induction a as [|x a IH]; intros [|y b]; simpl;
    try (split; [discriminate | congruence]); [split; reflexivity|].
  rewrite andb_true_iff, N.eqb_eq, IH. split.
  - intros [-> ->]. reflexivity.
  - intro E. injection E as -> ->. split; reflexivity.
Qed.

(** ** The input box *)

(** X1: from an enabled input, [handleSend] hands [onSend] the draft
    without the white space around it, and empties the box: what is sent
    is not empty, starts and ends with something other than white space,
    and the draft is white space, then the sent text, then white space. *)
Theorem handleSend_sends_stripped (onSend : jsstring -> World -> World)
    (draft : jsstring) (w : World) :
  forallb isWhiteSpace draft = false ->
  exists before sent after,
    ChatInput.handleSend onSend false draft w = ([], onSend sent w) /\
    draft = before ++ sent ++ after /\
    forallb isWhiteSpace before = true /\
    forallb isWhiteSpace after = true /\
    stripped sent = true.
Proof.
  intro H. apply trim_not_blank in H.
  destruct (trim_split draft) as (before & after & E & W1 & W2).
  exists before, (trim draft), after. repeat split; auto.
  - unfold ChatInput.handleSend. destruct (trim draft); [congruence | reflexivity].
  - apply trim_stripped, H.
Qed.

Lemma handleSend_sends_stripped_witness :
  forallb isWhiteSpace (lit "  hi there ") = false /\
  exists before sent after,
    ChatInput.handleSend (ChatProvider.sendMessage_call fresh1) false
      (lit "  hi there ") idle
      = ([], ChatProvider.sendMessage_call fresh1 sent idle) /\
    lit "  hi there " = before ++ sent ++ after /\
    forallb isWhiteSpace before = true /\
    forallb isWhiteSpace after = true /\
    stripped sent = true.
Proof.
  split; [reflexivity|].
  apply (handleSend_sends_stripped (ChatProvider.sendMessage_call fresh1)
           (lit "  hi there ") idle).
  reflexivity.
Defined.

Lemma sendMessage_call_changes (f : Fresh) (content0 : jsstring) (w : World) :
  ChatProvider.sendMessage_call f content0 w <> w.
Proof.
  intro E. apply (f_equal (fun x => length (requests x))) in E.
  unfold ChatProvider.sendMessage_call in E.
  destruct (persistEffect_frame (useChat.sendMessage_call f content0 w))
    as (_ & _ & _ & _ & R).
  rewrite R in E. simpl in E. rewrite length_app in E. simpl in E. lia.
Qed.

(** X2: in the panel a key press sends exactly when the key is Enter,
    Shift is not held, the draft has something other than white space in
    it and no send is in flight; in every other case the session is left
    as it is.  The default action is prevented for Enter without Shift
    and for nothing else. *)
Theorem keyDown_sends_iff (f : Fresh) (key : jsstring) (shiftKey : bool)
    (draft : jsstring) (w : World) :
  let r := ChatInput.handleKeyDown (ChatProvider.sendMessage_call f) (isLoading w)
             key shiftKey draft w in
  (snd (snd r) <> w <->
     key = lit "Enter" /\ shiftKey = false /\
     forallb isWhiteSpace draft = false /\ isLoading w = false) /\
  (fst r = true <-> key = lit "Enter" /\ shiftKey = false).
Proof.
  unfold ChatInput.handleKeyDown, ChatInput.handleSend.
  assert (B : forallb isWhiteSpace draft = false <-> trim draft <> []).
  { split; [apply trim_not_blank|]. intro H.
    destruct (forallb isWhiteSpace draft) eqn:E; [|reflexivity].
    apply trim_nil_iff in E. congruence. }
  pose proof (@sendMessage_call_changes f (trim draft) w) as Hcall.
  destruct (str_eqb key (lit "Enter")) eqn:K.
  - apply str_eqb_eq in K.
    destruct shiftKey, (isLoading w), (trim draft) as [|c t]; simpl;
      intuition (congruence || discriminate).
  - assert (N : key <> lit "Enter").
    { intro E. apply str_eqb_eq in E. congruence. }
    simpl. intuition (congruence || discriminate).
Qed.

Lemma keyDown_sends_witness :
  snd (snd (ChatInput.handleKeyDown (ChatProvider.sendMessage_call fresh1)
              (isLoading idle) (lit "Enter") false (lit "hi") idle)) <> idle.
Proof.
  apply (proj2 (proj1 (keyDown_sends_iff fresh1 (lit "Enter") false (lit "hi") idle))).
  repeat split.
Defined.

(** X3: whenever the send button is enabled, [handleSend] sends the
    trimmed draft; and for a draft within the length limit, whenever the
    button is disabled [handleSend] does nothing. *)
Theorem sendButton_agrees_with_handleSend (onSend : jsstring -> World -> World)
    (disabled : bool) (draft : jsstring) (w : World) :
  (ChatInput.sendButtonDisabled disabled draft = false ->
   ChatInput.handleSend onSend disabled draft w = ([], onSend (trim draft) w)) /\
  ((length draft <= 500)%nat ->
   ChatInput.sendButtonDisabled disabled draft = true ->
   ChatInput.handleSend onSend disabled draft w = (draft, w)).
Proof.
  unfold ChatInput.sendButtonDisabled, ChatInput.handleSend. split.
  - intro H. apply orb_false_iff in H as [H _]. apply orb_false_iff in H as [-> H].
    apply negb_false_iff in H. rewrite H. reflexivity.
  - intros L H.
    assert (O : ChatInput.isOverLimit draft = false).
    { unfold ChatInput.isOverLimit, ChatInput.remainingChars, ChatInput.MAX_LENGTH.
      apply Z.ltb_ge. lia. }
    rewrite O, orb_false_r in H.
    destruct disabled; simpl in *.
    + rewrite andb_false_r. reflexivity.
    + apply negb_true_iff in H. rewrite H. reflexivity.
Qed.

Lemma sendButton_agrees_witness :
  ChatInput.handleSend (ChatProvider.sendMessage_call fresh1) false (lit " hi ") idle
    = ([], ChatProvider.sendMessage_call fresh1 (trim (lit " hi ")) idle) /\
  ChatInput.handleSend (ChatProvider.sendMessage_call fresh1) true (lit " hi ") idle
    = (lit " hi ", idle).
Proof.
  split.
  - apply (proj1 (sendButton_agrees_with_handleSend
                    (ChatProvider.sendMessage_call fresh1) false (lit " hi ") idle)).
    reflexivity.
  - apply (proj2 (sendButton_agrees_with_handleSend
                    (ChatProvider.sendMessage_call fresh1) true (lit " hi ") idle)).
    + simpl. lia.
    + reflexivity.
Defined.

(** ** The session *)

(** X4: [toggleChat] flips [isOpen] and touches nothing else; toggling
    twice gives the session back. *)
Theorem toggleChat_involution (w : World) :
  ChatProvider.toggleChat (ChatProvider.toggleChat w) = w /\
  isOpen (ChatProvider.toggleChat w) = negb (isOpen w) /\
  messages (ChatProvider.toggleChat w) = messages w /\
  isLoading (ChatProvider.toggleChat w) = isLoading w /\
  error (ChatProvider.toggleChat w) = error w /\
  storage (ChatProvider.toggleChat w) = storage w /\
  requests (ChatProvider.toggleChat w) = requests w.
Proof.
  destruct w as [ms l e o st rq]. unfold ChatProvider.toggleChat, setIsOpen. simpl.
  rewrite negb_involutive. repeat split.
Qed.

Lemma send_settled_requests (s : Send) (w : World) :
  requests (send_settled s w) = requests w ++ [text s].
Proof.
  unfold send_settled, ChatProvider.sendMessage_settle, ChatProvider.sendMessage_call.
  destruct (persistEffect_frame
              (useChat.sendMessage_settle (answered s) (gateway s)
                 (ChatProvider.persistEffect
                    (useChat.sendMessage_call (asked s) (text s) w))))
    as (_ & _ & _ & _ & ->).
  unfold useChat.sendMessage_settle.
  destruct (gateway s); simpl;
    destruct (persistEffect_frame (useChat.sendMessage_call (asked s) (text s) w))
      as (_ & _ & _ & _ & ->); reflexivity.
Qed.

(** X5: a send the gateway answers appends the user turn and then one
    assistant turn carrying the answer's text and its sources; it issues
    one request with the text sent, and it leaves [error] null, whatever
    [error] was before, and [isLoading] false. *)
Theorem gateway_success_appends_answer (s : Send) (w : World) (r : ChatResponse) :
  gateway s = Returned r ->
  messages (send_settled s w)
    = messages w ++
      [mkMessage (uuid (asked s)) user (text s) (now (asked s)) None;
       mkMessage (uuid (answered s)) assistant (response r) (now (answered s))
         (Some (resp_sources r))] /\
  requests (send_settled s w) = requests w ++ [text s] /\
  error (send_settled s w) = None /\
  isLoading (send_settled s w) = false.
Proof.
  intro H. split; [|split; [|split]].
  - rewrite send_settled_messages. unfold turns_of, reply. rewrite H. reflexivity.
  - apply send_settled_requests.
  - rewrite send_settled_error, H. reflexivity.
  - unfold send_settled, ChatProvider.sendMessage_settle.
    match goal with |- isLoading (ChatProvider.persistEffect ?x) = _ =>
      destruct (persistEffect_frame x) as (_ & -> & _) end.
    reflexivity.
Qed.

Lemma gateway_success_witness :
  gateway send_ok = Returned (mkChatResponse (lit "ROS 2 is...") [ros2_source]) /\
  error (send_settled send_ok (send_settled send_failing idle)) = None.
Proof.
  assert (H : gateway send_ok
              = Returned (mkChatResponse (lit "ROS 2 is...") [ros2_source]))
    by reflexivity.
  split; [exact H|].
  exact (proj1 (proj2 (proj2 (@gateway_success_appends_answer
                                send_ok (send_settled send_failing idle) _ H)))).
Defined.

(** X6: no transition but [clearHistory] removes or rewrites a turn: the
    old log is kept as it is and at most one turn is put after it. *)
Theorem log_only_grows (a : Action) (w : World) :
  a <> ClearHistory ->
  exists new, messages (step a w) = messages w ++ new /\ (length new <= 1)%nat.
Proof.
  intro H. destruct a as [f c | f o | | ]; simpl.
  - exists [useChat.userMessage f c]. split; [|simpl; lia].
    unfold ChatProvider.sendMessage_call. rewrite persistEffect_messages. reflexivity.
  - exists [settle_turn f o]. split; [|simpl; lia].
    unfold ChatProvider.sendMessage_settle. rewrite persistEffect_messages.
    destruct o; reflexivity.
  - congruence.
  - exists []. split; [|simpl; lia]. symmetry. apply app_nil_r.
Qed.

Lemma log_only_grows_witness :
  exists new,
    messages (step (SettleSend fresh2 (Threw NotAnError)) busy) = messages busy ++ new /\
    (length new <= 1)%nat.
Proof.
  apply (@log_only_grows (SettleSend fresh2 (Threw NotAnError)) busy).
  discriminate.
Defined.

Lemma NoDup_snoc (A : Type) (l : list A) (a : A) :
  NoDup l -> ~ In a l -> NoDup (l ++ [a]).
Proof.
  induction l as [|x l IH]; simpl; intros N H.
  - constructor; [intros []| constructor].
  - inversion N as [|? ? Hx Hl]; subst. constructor.
    + rewrite in_app_iff. simpl. intuition congruence.
    + apply IH; [exact Hl | intuition].
Qed.

(** X7: a settled send keeps the turn ids distinct, provided the two ids
    [uuidv4] hands out are new to the log and differ from each other. *)
Theorem ids_stay_unique (s : Send) (w : World) :
  NoDup (map id (messages w)) ->
  ~ In (uuid (asked s)) (map id (messages w)) ->
  ~ In (uuid (answered s)) (map id (messages w)) ->
  uuid (asked s) <> uuid (answered s) ->
  NoDup (map id (messages (send_settled s w))).
Proof.
  intros N H1 H2 D. rewrite send_settled_messages, map_app.
  assert (E : map id (turns_of s) = [uuid (asked s)] ++ [uuid (answered s)]).
  { unfold turns_of, reply. destruct (gateway s); reflexivity. }
  rewrite E, app_assoc. apply NoDup_snoc; [apply NoDup_snoc; assumption|].
  rewrite in_app_iff. simpl. intuition congruence.
Qed.

Lemma ids_stay_unique_witness :
  NoDup (map id (messages (send_settled send_failing (send_settled send_ok idle)))).
Proof.
  apply (@ids_stay_unique send_failing (send_settled send_ok idle)).
  - vm_compute. constructor; [|constructor; [|constructor]]; simpl; intuition discriminate.
  - vm_compute. intuition discriminate.
  - vm_compute. intuition discriminate.
  - vm_compute. discriminate.
Defined.

(** ** The gateway *)

(** X8: [sendQuery] returns an answer exactly when the response is ok
    and its body parses, and then it returns that body. *)
Theorem sendQuery_answers_iff (fetch : ChatAPI.Network) (query : jsstring)
    (data : ChatResponse) :
  ChatAPI.sendQuery fetch query = Returned data
  <-> fetch query = ChatAPI.Ok (Returned data).
Proof.
  unfold ChatAPI.sendQuery.
  destruct (fetch query) as [e | [e0|e] | [r|e]];
    split; intro H; try discriminate H; congruence.
Qed.

Lemma sendQuery_answers_witness :
  ChatAPI.sendQuery scenario_network (lit "What is ROS 2?")
    = Returned (mkChatResponse (lit "ROS 2 is...") [ros2_source]).
Proof.
  apply (proj2 (sendQuery_answers_iff scenario_network (lit "What is ROS 2?")
                  (mkChatResponse (lit "ROS 2 is...") [ros2_source]))).
  reflexivity.
Defined.



(** ** Loading and reloading *)

(** X10: the first render takes whatever sequence is stored as the log,
    however long, and an absent or unparsable value as the empty log; it
    starts idle, closed and without error.  With an empty log it leaves
    the stored value as it found it; otherwise what is stored afterwards
    is the last 50 turns of the log. *)
Theorem mount_seeds (v : StoredValue) :
  messages (ChatProvider.mount v) = readStored [] v /\
  isLoading (ChatProvider.mount v) = false /\
  error (ChatProvider.mount v) = None /\
  isOpen (ChatProvider.mount v) = false /\
  requests (ChatProvider.mount v) = [] /\
  (readStored [] v = [] -> storage (ChatProvider.mount v) = v) /\
  (readStored [] v <> [] ->
   storage (ChatProvider.mount v) = Snapshot (last_turns 50 (readStored [] v))).
Proof.
  unfold ChatProvider.mount.
  destruct (persistEffect_frame (useChat.init (readStored [] v) false v))
    as (M & L & E & O & R).
  rewrite M, L, E, O, R. repeat split.
  - intro H. rewrite persistEffect_empty by exact H. reflexivity.
  - intro H. rewrite persistEffect_storage by exact H. reflexivity.
Qed.

Lemma mount_seeds_witness :
  storage (ChatProvider.mount Unparsable) = Unparsable /\
  storage (ChatProvider.mount (Snapshot (messages busy)))
    = Snapshot (last_turns 50 (messages busy)).
Proof.
  split.
  - apply (proj1 (proj2 (proj2 (proj2 (proj2 (proj2 (mount_seeds Unparsable))))))).
    reflexivity.
  - apply (proj2 (proj2 (proj2 (proj2 (proj2 (proj2
             (mount_seeds (Snapshot (messages busy))))))))).
    discriminate.
Defined.

Lemma reachable_empty_log (w : World) :
  reachable w -> messages w = [] -> readStored [] (storage w) = [].
Proof.
  induction 1 as [v | a w Hw IH]; intro E.
  - destruct (mount_seeds v) as (M & _ & _ & _ & _ & S & _).
    rewrite M in E. rewrite (S E). exact E.
  - destruct a as [f c | f o | | ]; simpl in *.
    + unfold ChatProvider.sendMessage_call in E. rewrite persistEffect_messages in E.
      simpl in E. destruct (messages w); discriminate E.
    + unfold ChatProvider.sendMessage_settle in E. rewrite persistEffect_messages in E.
      destruct o; simpl in E; destruct (messages w); discriminate E.
    + destruct w; reflexivity.
    + apply IH, E.
Qed.

Lemma last_turns_idem (A : Type) (n : nat) (l : list A) :
  last_turns n (last_turns n l) = last_turns n l.
Proof. apply last_turns_all. rewrite last_turns_length. lia. Qed.

(** X11: in every session a reload brings back the last 50 turns of the
    log (the whole log when it has no more), and stores again exactly
    what was stored. *)
Theorem reload_restores_recent (w : World) :
  reachable w ->
  messages (ChatProvider.mount (storage w)) = last_turns 50 (messages w) /\
  storage (ChatProvider.mount (storage w)) = storage w.
Proof.
  intro R. destruct (mount_seeds (storage w)) as (M & _ & _ & _ & _ & S0 & S1).
  rewrite M. destruct (messages w) as [|m l] eqn:E.
  - pose proof (reachable_empty_log R E) as H. rewrite H. split; [reflexivity|].
    apply S0, H.
  - assert (N : messages w <> []) by (rewrite E; discriminate).
    pose proof (snapshot_invariant R N) as H. rewrite E in H.
    assert (N' : last_turns 50 (m :: l) <> [])
      by (apply last_turns_nonempty; [lia | discriminate]).
    rewrite H in *. simpl in *. split; [reflexivity|].
    rewrite (S1 N'), last_turns_idem. reflexivity.
Qed.

Lemma reload_restores_recent_witness :
  messages (ChatProvider.mount (storage busy)) = last_turns 50 (messages busy) /\
  storage (ChatProvider.mount (storage busy)) = storage busy.
Proof.
  apply (@reload_restores_recent busy).
  exact (reach_step (CallSend fresh1 (lit "What is ROS 2?")) (reach_mount Absent)).
Defined.

(** X12: in every session, at every moment, at most 50 turns are
    stored, whatever was stored when the page loaded. *)
Theorem stored_turns_bounded (w : World) :
  reachable w -> (length (readStored [] (storage w)) <= 50)%nat.
Proof.
  intro R. destruct (messages w) as [|m l] eqn:E.
  - rewrite (reachable_empty_log R E). simpl. lia.
  - assert (N : messages w <> []) by (rewrite E; discriminate).
    rewrite (snapshot_invariant R N). simpl. rewrite last_turns_length. lia.
Qed.

Lemma stored_turns_bounded_witness :
  (length (readStored [] (storage (run_sends (repeat send_ok 30) idle))) <= 50)%nat.
Proof.
  apply (@stored_turns_bounded (run_sends (repeat send_ok 30) idle)).
  unfold run_sends.
  assert (H : forall ss w, reachable w ->
                reachable (fold_left (fun w s => send_settled s w) ss w)).
  { induction ss as [|s ss IH]; intros w R; simpl; [exact R|].
    apply IH. unfold send_settled.
    exact (reach_step (SettleSend (answered s) (gateway s))
             (reach_step (CallSend (asked s) (text s)) R)). }
  apply H. exact (reach_mount Absent).
Defined.

(** X13: [clearHistory] does not call off a send in flight: it leaves
    [isLoading] and the requests as they were, and when the gateway
    promise settles afterwards its turn is appended to the emptied log
    and stored, so the log and the snapshot are that one turn. *)
Theorem clearHistory_keeps_flight (f : Fresh) (o : Outcome ChatResponse) (w : World) :
  isLoading (ChatProvider.clearHistory w) = isLoading w /\
  requests (ChatProvider.clearHistory w) = requests w /\
  messages (ChatProvider.sendMessage_settle f o (ChatProvider.clearHistory w))
    = [settle_turn f o] /\
  storage (ChatProvider.sendMessage_settle f o (ChatProvider.clearHistory w))
    = Snapshot [settle_turn f o].
Proof. destruct w, o; repeat split. Qed.

(** ** The widget as the user drives it *)

Lemma sendMessage_call_frame (f : Fresh) (content0 : jsstring) (w : World) :
  isLoading (ChatProvider.sendMessage_call f content0 w) = true /\
  requests (ChatProvider.sendMessage_call f content0 w) = requests w ++ [content0] /\
  isOpen (ChatProvider.sendMessage_call f content0 w) = isOpen w.
Proof.
  unfold ChatProvider.sendMessage_call.
  destruct (persistEffect_frame (useChat.sendMessage_call f content0 w))
    as (_ & -> & _ & -> & ->).
  repeat split.
Qed.

Lemma sendMessage_settle_frame (f : Fresh) (o : Outcome ChatResponse) (w : World) :
  isLoading (ChatProvider.sendMessage_settle f o w) = false /\
  requests (ChatProvider.sendMessage_settle f o w) = requests w /\
  isOpen (ChatProvider.sendMessage_settle f o w) = isOpen w.
Proof.
  unfold ChatProvider.sendMessage_settle.
  destruct (persistEffect_frame (useChat.sendMessage_settle f o w))
    as (_ & -> & _ & -> & ->).
  destruct o; repeat split.
Qed.

Lemma clearHistory_frame (w : World) :
  isLoading (ChatProvider.clearHistory w) = isLoading w /\
  requests (ChatProvider.clearHistory w) = requests w /\
  isOpen (ChatProvider.clearHistory w) = isOpen w.
Proof. destruct w; repeat split. Qed.

(** The two ways [handleSend] can go in the panel. *)
Lemma panel_handleSend_cases (f : Fresh) (draft : jsstring) (w : World) :
  ChatInput.handleSend (ChatProvider.sendMessage_call f) (isLoading w) draft w
    = (draft, w) \/
  (isLoading w = false /\ trim draft <> [] /\
   ChatInput.handleSend (ChatProvider.sendMessage_call f) (isLoading w) draft w
     = ([], ChatProvider.sendMessage_call f (trim draft) w)).
Proof.
  unfold ChatInput.handleSend.
  destruct (trim draft) as [|c t]; [left; reflexivity|].
  destruct (isLoading w); [left; reflexivity|].
  right. repeat split. discriminate.
Qed.

Lemma panel_handleKeyDown_cases (f : Fresh) (key : jsstring) (shiftKey : bool)
    (draft : jsstring) (w : World) :
  snd (ChatInput.handleKeyDown (ChatProvider.sendMessage_call f) (isLoading w)
         key shiftKey draft w)
    = (draft, w) \/
  snd (ChatInput.handleKeyDown (ChatProvider.sendMessage_call f) (isLoading w)
         key shiftKey draft w)
    = ChatInput.handleSend (ChatProvider.sendMessage_call f) (isLoading w) draft w.
Proof.
  unfold ChatInput.handleKeyDown.
  destruct (str_eqb key (lit "Enter") && negb shiftKey); [right | left]; reflexivity.
Qed.

(** Each event's effect on the session, as far as the flags and the
    requests go: nothing, a call of [sendMessage] from rest with a
    stripped text, a settling while a request is outstanding, or a change
    that leaves [isLoading] and the requests alone. *)
Lemma ui_step_cases (u : UI) (e : Event) :
  (isLoading (world (ui_step u e)) = isLoading (world u) /\
   requests (world (ui_step u e)) = requests (world u) /\
   settled (ui_step u e) = settled u) \/
  (isLoading (world u) = false /\
   isLoading (world (ui_step u e)) = true /\
   (exists q, stripped q = true /\
              requests (world (ui_step u e)) = requests (world u) ++ [q]) /\
   settled (ui_step u e) = settled u) \/
  ((0 < outstanding u)%nat /\
   isLoading (world (ui_step u e)) = false /\
   requests (world (ui_step u e)) = requests (world u) /\
   settled (ui_step u e) = S (settled u)).
Proof.
  assert (Send : forall f r,
    r = ChatInput.handleSend (ChatProvider.sendMessage_call f) (isLoading (world u))
          (input u) (world u) ->
    (isLoading (snd r) = isLoading (world u) /\ requests (snd r) = requests (world u)) \/
    (isLoading (world u) = false /\ isLoading (snd r) = true /\
     exists q, stripped q = true /\ requests (snd r) = requests (world u) ++ [q])).
  { intros f r ->.
    destruct (panel_handleSend_cases f (input u) (world u)) as [-> | (L & T & ->)].
    - left. split; reflexivity.
    - right. simpl.
      destruct (sendMessage_call_frame f (trim (input u)) (world u)) as (-> & -> & _).
      repeat split; [exact L|]. exists (trim (input u)).
      split; [apply trim_stripped, T | reflexivity]. }
  destruct e as [value h | key shiftKey f | f | | | f o]; simpl.
  - destruct (isOpen (world u)); left; repeat split.
  - destruct (isOpen (world u)); [|left; repeat split].
    destruct (panel_handleKeyDown_cases f key shiftKey (input u) (world u)) as [E | E];
      simpl; rewrite E.
    + left. repeat split.
    + destruct (Send f _ eq_refl) as [(A & B) | (A & B & C)];
        [left | right; left]; repeat split; assumption.
  - destruct (isOpen (world u)); [|left; repeat split].
    destruct (Send f _ eq_refl) as [(A & B) | (A & B & C)];
      [left | right; left]; repeat split; assumption.
  - destruct (isOpen (world u)); [|left; repeat split].
    destruct (clearHistory_frame (world u)) as (A & B & _).
    left. repeat split; assumption.
  - left. repeat split.
  - destruct (0 <? outstanding u)%nat eqn:P; [|left; repeat split].
    apply Nat.ltb_lt in P. right; right. simpl.
    destruct (sendMessage_settle_frame f o (world u)) as (A & B & _).
    repeat split; assumption.
Qed.

Lemma ui_step_ok (u : UI) (e : Event) : ui_ok u -> ui_ok (ui_step u e).
Proof.
  unfold ui_ok, outstanding. intros (S & O & Q).
  destruct (ui_step_cases u e)
    as [(L & R & T) | [(L0 & L & (q & Hq & R) & T) | (P & L & R & T)]];
    rewrite L, R, T.
  - auto.
  - rewrite L0 in O. rewrite length_app. simpl in *.
    repeat split; [lia | lia |]. apply Forall_app. split; [exact Q|].
    constructor; [exact Hq | constructor].
  - unfold outstanding in P.
    destruct (isLoading (world u)); repeat split; try lia; exact Q.
Qed.

Lemma ui_run_ok (v : StoredValue) (es : list Event) : ui_ok (ui_run v es).
Proof.
  unfold ui_run.
  assert (H : forall es u, ui_ok u -> ui_ok (fold_left ui_step es u)).
  { clear. induction es as [|e es IH]; intros u H; simpl; [exact H|].
    apply IH, ui_step_ok, H. }
  apply H. unfold ui_ok, outstanding, ui_init.
  destruct (mount_seeds v) as (_ & L & _ & _ & R & _). simpl.
  rewrite L, R. simpl. repeat split; [lia | constructor].
Qed.

(** X14: however the widget is driven (typing, keys, clicks on send,
    clear and toggle, gateway promises settling), at most one gateway
    request is outstanding at any moment, and [isLoading] is true exactly
    while one is. *)
Theorem ui_single_flight (v : StoredValue) (es : list Event) :
  (outstanding (ui_run v es) <= 1)%nat /\
  (isLoading (world (ui_run v es)) = true <-> outstanding (ui_run v es) = 1%nat) /\
  (settled (ui_run v es) <= length (requests (world (ui_run v es))))%nat.
Proof.
  destruct (ui_run_ok v es) as (S & O & _).
  destruct (isLoading (world (ui_run v es))); rewrite O;
    repeat split; try lia; try discriminate; exact S.
Qed.

Lemma ui_single_flight_witness :
  isLoading (world (ui_run Absent visit)) = true /\
  outstanding (ui_run Absent visit) = 1%nat /\
  requests (world (ui_run Absent visit)) = [lit "What is ROS 2?"].
Proof.
  assert (L : isLoading (world (ui_run Absent visit)) = true) by reflexivity.
  split; [exact L|]. split; [|reflexivity].
  exact (proj1 (proj1 (proj2 (ui_single_flight Absent visit))) L).
Defined.

(** X15: every query the widget sends to the gateway is a stripped text:
    it is not empty and neither starts nor ends with white space. *)
Theorem ui_requests_stripped (v : StoredValue) (es : list Event) :
  Forall (fun q => stripped q = true) (requests (world (ui_run v es))).
Proof. apply ui_run_ok. Qed.

(** ** What is on screen *)

(** X16: of the turns [sendMessage] creates, only an answer that came
    with at least one source is shown with a sources block, one link per
    source in the answer's order; the user's turn and the apology never
    have one. *)
Theorem sources_block_iff (f : Fresh) (o : Outcome ChatResponse) (content0 : jsstring) :
  MessageBubble.sourcesBlock (MessageBubble.render (useChat.userMessage f content0))
    = None /\
  (forall links,
     MessageBubble.sourcesBlock (MessageBubble.render (settle_turn f o)) = Some links
     <-> exists r, o = Returned r /\ resp_sources r <> [] /\
                   links = map MessageBubble.sourceLink (resp_sources r)).
Proof.
  split; [reflexivity|]. intro links. destruct o as [r | err]; simpl.
  - destruct (resp_sources r) as [|x l] eqn:E; simpl.
    + split; [discriminate|]. intros (r' & R & N & _). injection R as <-. congruence.
    + split.
      * intro H. injection H as <-. exists r. rewrite E. repeat split. discriminate.
      * intros (r' & R & _ & ->). injection R as <-. rewrite E. reflexivity.
  - split; [discriminate|]. intros (r' & R & _). discriminate R.
Qed.

Lemma sources_block_witness :
  MessageBubble.sourcesBlock
    (MessageBubble.render
       (settle_turn fresh2 (Returned (mkChatResponse (lit "ROS 2 is...") [ros2_source]))))
    = Some [MessageBubble.mkSourceLink (lit "/docs/ros2") (lit "ROS 2 Intro (robotics)")].
Proof.
  apply (proj2 (proj2 (sources_block_iff fresh2
                         (Returned (mkChatResponse (lit "ROS 2 is...") [ros2_source]))
                         []) _)).
  exists (mkChatResponse (lit "ROS 2 is...") [ros2_source]).
  repeat split. discriminate.
Defined.

(** X17: however the widget is driven, a closed panel renders nothing,
    and an open one shows the typing indicator and disables the input
    exactly while a request is outstanding, offers the clear button
    exactly when the greeting is not shown, that is when the log is not
    empty, and shows one bubble per turn with the turn's text, in the
    order of the log. *)
Theorem panel_shows_session (v : StoredValue) (es : list Event) :
  match ChatPanel.render (contextValue (world (ui_run v es))) with
  | None => isOpen (world (ui_run v es)) = false
  | Some view =>
      isOpen (world (ui_run v es)) = true /\
      (MessageList.loadingIndicator (ChatPanel.messageList view) = true
       <-> outstanding (ui_run v es) = 1%nat) /\
      (ChatPanel.inputDisabled view = true <-> outstanding (ui_run v es) = 1%nat) /\
      ChatPanel.clearButton view
        = negb (MessageList.emptyState (ChatPanel.messageList view)) /\
      (ChatPanel.clearButton view = true <-> messages (world (ui_run v es)) <> []) /\
      map MessageBubble.body (MessageList.bubbles (ChatPanel.messageList view))
        = map content (messages (world (ui_run v es)))
  end.
Proof.
  destruct (ui_run_ok v es) as (_ & O & _).
  unfold ChatPanel.render. simpl.
  destruct (isOpen (world (ui_run v es))); simpl; [|reflexivity].
  assert (B : isLoading (world (ui_run v es)) = true
              <-> outstanding (ui_run v es) = 1%nat).
  { rewrite O. destruct (isLoading (world (ui_run v es)));
      split; (reflexivity || discriminate). }
  split; [reflexivity|]. split; [exact B|]. split; [exact B|].
  destruct (messages (world (ui_run v es))) as [|m l]; simpl.
  - repeat split; try reflexivity; try discriminate. congruence.
  - repeat split; try reflexivity; try discriminate.
    rewrite map_map. reflexivity.
Qed.

(** ** The health check *)

(** X18: [checkHealth] never throws, whatever the network does, and it
    does not look at the status of the response: the same body gives the
    same result under an ok and a failed status. *)
Theorem checkHealth_never_throws (fetch : ChatAPI.HealthFetch) :
  (exists h, ChatAPI.checkHealth fetch = Returned h) /\
  (forall ok body,
     ChatAPI.checkHealth (ChatAPI.HealthResponse ok body)
       = ChatAPI.checkHealth (ChatAPI.HealthResponse (negb ok) body)).
Proof.
  split.
  - destruct fetch as [e | ok [data | e]]; eexists; reflexivity.
  - intros ok [data | e]; reflexivity.
Qed.

(** ** The length limit *)

(** X19: the draft is over the limit from 501 code units on and the
    character counter is rendered from 451 on; an over-limit draft always
    has the counter on screen and the send button disabled. *)
Theorem input_length_thresholds (draft : jsstring) :
  ChatInput.isOverLimit draft = (500 <? length draft)%nat /\
  ChatInput.counterShown draft = (450 <? length draft)%nat /\
  (ChatInput.isOverLimit draft = true ->
   ChatInput.counterShown draft = true /\
   forall disabled, ChatInput.sendButtonDisabled disabled draft = true).
Proof.
  unfold ChatInput.sendButtonDisabled, ChatInput.isOverLimit, ChatInput.counterShown,
    ChatInput.remainingChars, ChatInput.MAX_LENGTH.
  split; [|split].
  - destruct (Nat.ltb_spec 500 (length draft));
      [apply Z.ltb_lt | apply Z.ltb_ge]; lia.
  - destruct (Nat.ltb_spec 450 (length draft));
      [apply Z.ltb_lt | apply Z.ltb_ge]; lia.
  - intro H. split.
    + apply Z.ltb_lt in H. apply Z.ltb_lt. lia.
    + intro disabled. rewrite H. apply orb_true_r.
Qed.

Lemma input_length_thresholds_witness :
  ChatInput.counterShown (repeat 0x61%N 501) = true /\
  forall disabled, ChatInput.sendButtonDisabled disabled (repeat 0x61%N 501) = true.
Proof.
  apply (proj2 (proj2 (input_length_thresholds (repeat 0x61%N 501)))).
  reflexivity.
Defined.
